(** * SIR_model_covid19: the [Doenca] integrator

    A shallow embedding of [SIR_model_covid19.py].  The class [Doenca] keeps
    six Python lists ([I], [C], [D], [S], [time], [leitos]); [__init__] fills
    each with its first entry and [run] advances them with a fixed-step
    explicit Euler scheme before scaling the four compartments by the
    population.

    The source is written against Python's numeric tower and never names a
    number type, so the embedding is generic in an interface [PyNumber] that
    offers exactly the operations the source uses.  It is instantiated twice
    from the same definitions:

    - [Binary64]: IEEE 754 binary64 (Rocq's primitive floats), the numbers
      CPython computes with: because of the float literal [dt = 0.01] every
      entry appended by [run] is a float whatever the arguments are;
    - [Exact]: the rationals, the reading of the same equations in exact
      arithmetic, with the literal [0.01] read as 1/100.

    Statements that hold whatever the arithmetic are proved once, for every
    instance.  Statements that need algebra are proved on [Exact].  On
    [Binary64] the statement about [gama = 0] is proved from the
    specification of the primitive operations, and the runs are evaluated:
    the call the source itself makes, and the inputs where the two readings
    part. *)

From Stdlib Require Import ZArith QArith Qround Lqa Lia List Bool.
From Stdlib Require Import Floats Qpower.
Import ListNotations.

Set Warnings "-inexact-float".

(** ** Python exceptions and results *)

Module Py.

Inductive exn : Type :=
| ZeroDivisionError
| IndexError
| ValueError
| OverflowError.

Inductive result (A : Type) : Type :=
| Ok (a : A)
| Raise (e : exn).

Arguments Ok {A} a.
Arguments Raise {A} e.

Definition bind {A B : Type} (r : result A) (k : A -> result B) : result B :=
  match r with
  | Ok a => k a
  | Raise e => Raise e
  end.

End Py.

Import Py.

Declare Scope py_scope.
Delimit Scope py_scope with py.

Notation "x <- r ;; k" := (bind r (fun x => k))
  (at level 61, r at next level, right associativity) : py_scope.

(** ** The numbers of the source

    [add], [sub], [mul] are [+], [-], [*]; [div] is the quotient [/] returns
    when the divisor is not zero and [is_zero] is the test that makes [/]
    raise [ZeroDivisionError]; [to_int] is [int(x)]; [of_int] is an [int]
    (a literal such as [0], [1], [744], or an argument such as
    [populacao=900000]) meeting the other operand of an arithmetic operator;
    [lit_0_01] is the literal [0.01]. *)

Class PyNumber (T : Type) : Type := {
  add : T -> T -> T;
  sub : T -> T -> T;
  mul : T -> T -> T;
  div : T -> T -> T;
  is_zero : T -> bool;
  to_int : T -> result Z;
  of_int : Z -> T;
  lit_0_01 : T
}.

Infix "+" := add : py_scope.
Infix "-" := sub : py_scope.
Infix "*" := mul : py_scope.

Section Model.

Context {T : Type} `{PyNumber T}.

Local Open Scope py_scope.

(** [a / b] *)
Definition truediv (a b : T) : result T :=
  if is_zero b then Raise ZeroDivisionError else Ok (div a b).

(** [l[-1]] *)
Fixpoint last_item (l : list T) : result T :=
  match l with
  | [] => Raise IndexError
  | [x] => Ok x
  | _ :: l' => last_item l'
  end.

(** The attributes of an instance, [self.simulationTime] ... [self.leitos].
    [self_tDeath] is the attribute after line 84 has overwritten it. *)
Record Doenca : Type := {
  self_simulationTime : T;
  self_populacao : T;
  self_beta : T;
  self_gama : T;
  self_tDeath : T;
  self_tCuradas : T;
  self_I : list T;
  self_C : list T;
  self_D : list T;
  self_S : list T;
  self_time : list T;
  self_leitos : list T
}.

(** [Doenca.__init__].  The only statements that can raise are the four
    divisions by [populacao]; [tCuradas] reads the parameter [tDeath], not
    the attribute that line 84 has just replaced by [tDeath * gama].  The
    defaults of the signature ([infectado=1], [curado=0], [mortos=0],
    [simulationTime=21], [leitos=0]) are left to the caller. *)
Definition init (populacao beta gama tDeath infectado curado mortos
                 simulationTime leitos : T) : result Doenca :=
  let self_tDeath' := tDeath * gama in
  let self_tCuradas' := gama * (of_int 1 - tDeath) in
  i0 <- truediv infectado populacao ;;
  c0 <- truediv curado populacao ;;
  d0 <- truediv mortos populacao ;;
  s0 <- truediv (populacao - infectado) populacao ;;
  Ok {| self_simulationTime := simulationTime;
        self_populacao := populacao;
        self_beta := beta;
        self_gama := gama;
        self_tDeath := self_tDeath';
        self_tCuradas := self_tCuradas';
        self_I := [i0];
        self_C := [c0];
        self_D := [d0];
        self_S := [s0];
        self_time := [of_int 0];
        self_leitos := [leitos] |}.

(** The body of the [for] loop of [run] (lines 104 to 115): five locals are
    computed from the last entries, then six appends. *)
Definition run_body (dt : T) (self : Doenca) : result Doenca :=
  i <- last_item (self_I self) ;;
  s <- last_item (self_S self) ;;
  c <- last_item (self_C self) ;;
  d <- last_item (self_D self) ;;
  t <- last_item (self_time self) ;;
  let I := i + (self_beta self * i * s - self_gama self * i) * dt in
  let C := c + (self_tCuradas self * i) * dt in
  let D := d + (self_tDeath self * i) * dt in
  let S := s - (self_beta self * i * s) * dt in
  let time := t + dt in
  Ok {| self_simulationTime := self_simulationTime self;
        self_populacao := self_populacao self;
        self_beta := self_beta self;
        self_gama := self_gama self;
        self_tDeath := self_tDeath self;
        self_tCuradas := self_tCuradas self;
        self_I := self_I self ++ [I];
        self_C := self_C self ++ [C];
        self_D := self_D self ++ [D];
        self_S := self_S self ++ [S];
        self_time := self_time self ++ [time];
        self_leitos := self_leitos self ++ [of_int 744] |}.

(** [for t in range(n): body] *)
Fixpoint for_range (n : nat) (body : Doenca -> result Doenca)
                   (self : Doenca) : result Doenca :=
  match n with
  | O => Ok self
  | Datatypes.S n' => self' <- body self ;; for_range n' body self'
  end.

(** [int(self.simulationTime / dt)], the argument of [range]. *)
Definition run_steps (self : Doenca) : result Z :=
  q <- truediv (self_simulationTime self) lit_0_01 ;;
  to_int q.

(** [run] up to the end of the loop ("iterando"): the lists hold fractions
    of the population. *)
Definition run_iterando (self : Doenca) : result Doenca :=
  n <- run_steps self ;;
  for_range (Z.to_nat n) (run_body lit_0_01) self.

(** The four list comprehensions of lines 118 to 121 ("Colocando em numero
    absoluto"). *)
Definition run_absoluto (self : Doenca) : Doenca :=
  {| self_simulationTime := self_simulationTime self;
     self_populacao := self_populacao self;
     self_beta := self_beta self;
     self_gama := self_gama self;
     self_tDeath := self_tDeath self;
     self_tCuradas := self_tCuradas self;
     self_I := map (fun i => i * self_populacao self) (self_I self);
     self_C := map (fun c => c * self_populacao self) (self_C self);
     self_D := map (fun d => d * self_populacao self) (self_D self);
     self_S := map (fun s => s * self_populacao self) (self_S self);
     self_time := self_time self;
     self_leitos := self_leitos self |}.

(** [Doenca.run] *)
Definition run (self : Doenca) : result Doenca :=
  self' <- run_iterando self ;;
  Ok (run_absoluto self').

(** The script at the end of the source builds an instance and runs it
    ([corona = Doenca(...)], [corona.run()]).  [simulacao] is that sequence
    for any arguments, [simulacao_fracoes] the same stopped at the end of
    the loop, before the lists are scaled by the population. *)
Definition simulacao (populacao beta gama tDeath infectado curado mortos
                      simulationTime leitos : T) : result Doenca :=
  self <- init populacao beta gama tDeath infectado curado mortos
               simulationTime leitos ;;
  run self.

Definition simulacao_fracoes (populacao beta gama tDeath infectado curado
                              mortos simulationTime leitos : T)
  : result Doenca :=
  self <- init populacao beta gama tDeath infectado curado mortos
               simulationTime leitos ;;
  run_iterando self.

(** *** The trajectory as a sequence of snapshots

    A [ponto] is what one pass of the loop reads: the last entry of each of
    the five lists it computes with.  [euler] is the pass on a snapshot,
    [orbit n p] the [n] snapshots that follow [p], and [extend self ps] the
    instance after the entries of [ps] (and as many [744]) have been
    appended.  [for_range_orbit] below shows that the loop of [run] computes
    exactly [extend self (orbit ...)]. *)
Record ponto : Type := {
  pI : T;
  pC : T;
  pD : T;
  pS : T;
  ptime : T
}.

Definition ultimo (self : Doenca) : result ponto :=
  i <- last_item (self_I self) ;;
  s <- last_item (self_S self) ;;
  c <- last_item (self_C self) ;;
  d <- last_item (self_D self) ;;
  t <- last_item (self_time self) ;;
  Ok {| pI := i; pC := c; pD := d; pS := s; ptime := t |}.

Definition euler (self : Doenca) (dt : T) (p : ponto) : ponto :=
  {| pI := pI p + (self_beta self * pI p * pS p - self_gama self * pI p) * dt;
     pC := pC p + (self_tCuradas self * pI p) * dt;
     pD := pD p + (self_tDeath self * pI p) * dt;
     pS := pS p - (self_beta self * pI p * pS p) * dt;
     ptime := ptime p + dt |}.

Fixpoint orbit (self : Doenca) (dt : T) (n : nat) (p : ponto) : list ponto :=
  match n with
  | O => []
  | Datatypes.S n' => euler self dt p :: orbit self dt n' (euler self dt p)
  end.

Definition extend (self : Doenca) (ps : list ponto) : Doenca :=
  {| self_simulationTime := self_simulationTime self;
     self_populacao := self_populacao self;
     self_beta := self_beta self;
     self_gama := self_gama self;
     self_tDeath := self_tDeath self;
     self_tCuradas := self_tCuradas self;
     self_I := self_I self ++ map pI ps;
     self_C := self_C self ++ map pC ps;
     self_D := self_D self ++ map pD ps;
     self_S := self_S self ++ map pS ps;
     self_time := self_time self ++ map ptime ps;
     self_leitos := self_leitos self ++ map (fun _ => of_int 744) ps |}.

(** The snapshot [k] passes after [p]. *)
Definition after (self : Doenca) (dt : T) (k : nat) (p : ponto) : ponto :=
  Nat.iter k (euler self dt) p.

(** The instance [__init__] builds when [populacao] is not zero. *)
Definition novo (populacao beta gama tDeath infectado curado mortos
                 simulationTime leitos : T) : Doenca :=
  {| self_simulationTime := simulationTime;
     self_populacao := populacao;
     self_beta := beta;
     self_gama := gama;
     self_tDeath := tDeath * gama;
     self_tCuradas := gama * (of_int 1 - tDeath);
     self_I := [div infectado populacao];
     self_C := [div curado populacao];
     self_D := [div mortos populacao];
     self_S := [div (populacao - infectado) populacao];
     self_time := [of_int 0];
     self_leitos := [leitos] |}.

(** Its first snapshot. *)
Definition inicio (populacao infectado curado mortos : T) : ponto :=
  {| pI := div infectado populacao;
     pC := div curado populacao;
     pD := div mortos populacao;
     pS := div (populacao - infectado) populacao;
     ptime := of_int 0 |}.

End Model.

(** ** Binary64: the numbers CPython computes with

    A Python [float] is a binary64 and [+], [-], [*], [/] round to nearest,
    ties to even, as the primitive operations do; only a zero divisor is
    treated differently, by raising.  An [int] argument such as
    [populacao=900000] is read as the float it converts to: for integers
    below 2^53 the conversion is exact and [int / int] is the float
    quotient. *)

Module Binary64.

(** [int(x)] of a float: truncation toward zero, [ValueError] on NaN,
    [OverflowError] on an infinity. *)
Definition float_to_int (x : float) : result Z :=
  match Prim2SF x with
  | S754_zero _ => Ok 0%Z
  | S754_infinity _ => Raise OverflowError
  | S754_nan => Raise ValueError
  | S754_finite s m e =>
      let v := match e with
               | Zneg p => Z.shiftr (Zpos m) (Zpos p)
               | _ => Z.shiftl (Zpos m) e
               end in
      Ok (if s then Z.opp v else v)
  end.

(** [float(z)]: the integer rounded to the nearest binary64. *)
Definition float_of_int (z : Z) : float :=
  SF2Prim (binary_normalize prec emax z 0 false).

#[global] Instance float_number : PyNumber float := {
  add := PrimFloat.add;
  sub := PrimFloat.sub;
  mul := PrimFloat.mul;
  div := PrimFloat.div;
  is_zero := fun x => PrimFloat.eqb x 0%float;
  to_int := float_to_int;
  of_int := float_of_int;
  lit_0_01 := 0.01%float
}.

(** The parameter sets that section 4.1 of the specification calls valid,
    as a test on floats.  The source has no such test. *)
Definition valid (populacao beta gama tDeath infectado curado mortos
                  simulationTime leitos : float) : bool :=
  (0 <? populacao)%float && (0 <=? beta)%float && (0 <=? gama)%float
  && (0 <=? tDeath)%float && (tDeath <=? 1)%float
  && (0 <=? infectado)%float && (infectado <=? populacao)%float
  && (0 <=? curado)%float && (0 <=? mortos)%float
  && (0 <? simulationTime)%float && (0 <=? leitos)%float.

(** Tests on whole lists, for the closed runs below: [l[k] < l[k+1]] at
    every pair of consecutive indices, [l[k+1] <= l[k]] at every pair, and
    [l[k] == l[0]] at every index. *)
Fixpoint increasing (l : list float) : bool :=
  match l with
  | x :: ((y :: _) as l') => (x <? y)%float && increasing l'
  | _ => true
  end.

Fixpoint nonincreasing (l : list float) : bool :=
  match l with
  | x :: ((y :: _) as l') => (y <=? x)%float && nonincreasing l'
  | _ => true
  end.

Definition constant (l : list float) : bool :=
  match l with
  | [] => true
  | x :: l' => forallb (fun y => (y =? x)%float) l'
  end.

(** [S[k] + I[k] + C[k] + D[k]] for every index [k] of an instance. *)
Fixpoint somas (s i c d : list float) : list float :=
  match s, i, c, d with
  | s0 :: s', i0 :: i', c0 :: c', d0 :: d' =>
      (s0 + i0 + c0 + d0)%float :: somas s' i' c' d'
  | _, _, _, _ => []
  end.

(** The script at the end of the file (lines 163 to 177). *)
Definition c : float := 3%float.
Definition p : float := 0.10%float.
Definition beta : float := PrimFloat.mul c p.
Definition tempo_de_contaminacao : float := 4%float.
Definition gama : float := PrimFloat.div 1%float tempo_de_contaminacao.
Definition mortalidade : float := 0.04%float.

Definition corona : result Doenca :=
  init 900000%float beta gama mortalidade 5100%float 0%float 0%float
       360%float 5623%float.

End Binary64.

(** ** Exact: the same program over the rationals *)

Module Exact.

#[global] Instance Q_number : PyNumber Q := {
  add := Qplus;
  sub := Qminus;
  mul := Qmult;
  div := Qdiv;
  is_zero := fun x => Qeq_bool x 0;
  to_int := fun x => Ok (Z.quot (Qnum x) (Zpos (Qden x)));
  of_int := inject_Z;
  lit_0_01 := 1 # 100
}.

(** The parameter sets that section 4.1 of the specification calls valid.
    The source tests none of these conditions; the record only delimits the
    statements about valid runs. *)
Record valid (populacao beta gama tDeath infectado curado mortos
              simulationTime leitos : Q) : Prop := {
  populacao_pos : 0 < populacao;
  beta_nonneg : 0 <= beta;
  gama_nonneg : 0 <= gama;
  tDeath_range : 0 <= tDeath /\ tDeath <= 1;
  infectado_range : 0 <= infectado /\ infectado <= populacao;
  curado_nonneg : 0 <= curado;
  mortos_nonneg : 0 <= mortos;
  simulationTime_pos : 0 < simulationTime;
  leitos_nonneg : 0 <= leitos
}.

(** [S + I + C + D] of a snapshot. *)
Definition soma (p : ponto) : Q := pS p + pI p + pC p + pD p.

(** [l[k+1] <= l[k]] at every pair of consecutive indices of a list. *)
Definition nonincreasing (l : list Q) : Prop :=
  forall k : nat,
    (Datatypes.S k < length l)%nat -> nth (Datatypes.S k) l 0 <= nth k l 0.

(** [l[k] == l[0]] at every index of a list. *)
Definition constant (l : list Q) : Prop :=
  forall k : nat, (k < length l)%nat -> nth k l 0 == nth 0 l 0.

(** [S[k] + I[k] + C[k] + D[k]] of an instance. *)
Definition soma_at (m : Doenca) (k : nat) : Q :=
  nth k (self_S m) 0 + nth k (self_I m) 0 + nth k (self_C m) 0
  + nth k (self_D m) 0.

End Exact.

(** * Facts that hold for every number type *)

Section ModelFacts.

Context {T : Type} `{PyNumber T}.

Local Open Scope py_scope.

Lemma last_item_snoc (l : list T) (x : T) : last_item (l ++ [x]) = Ok x.
Proof.
  induction l as [|a l IH]; [reflexivity|].
  simpl. destruct (l ++ [x]) eqn:E; [|exact IH].
  destruct l; discriminate.
Qed.

Lemma init_novo (populacao beta gama tDeath infectado curado mortos
                 simulationTime leitos : T) :
  is_zero populacao = false ->
  init populacao beta gama tDeath infectado curado mortos simulationTime leitos
  = Ok (novo populacao beta gama tDeath infectado curado mortos
             simulationTime leitos).
Proof. intros Hz. unfold init, truediv. rewrite Hz. reflexivity. Qed.

Lemma init_zero (populacao beta gama tDeath infectado curado mortos
                 simulationTime leitos : T) :
  is_zero populacao = true ->
  init populacao beta gama tDeath infectado curado mortos simulationTime leitos
  = Raise ZeroDivisionError.
Proof. intros Hz. unfold init, truediv. rewrite Hz. reflexivity. Qed.

Lemma ultimo_novo (populacao beta gama tDeath infectado curado mortos
                   simulationTime leitos : T) :
  ultimo (novo populacao beta gama tDeath infectado curado mortos
               simulationTime leitos)
  = Ok (inicio populacao infectado curado mortos).
Proof. reflexivity. Qed.

Lemma extend_nil (self : Doenca) : extend self [] = self.
Proof. destruct self. unfold extend. simpl. now rewrite !app_nil_r. Qed.

Lemma extend_extend (self : Doenca) (ps qs : list ponto) :
  extend (extend self ps) qs = extend self (ps ++ qs).
Proof. unfold extend. simpl. now rewrite !map_app, <- !app_assoc. Qed.

Lemma ultimo_extend_one (self : Doenca) (q : ponto) :
  ultimo (extend self [q]) = Ok q.
Proof.
  unfold ultimo, extend. simpl. rewrite !last_item_snoc. simpl.
  now destruct q.
Qed.

Lemma run_body_extend (self : Doenca) (dt : T) (p : ponto) :
  ultimo self = Ok p ->
  run_body dt self = Ok (extend self [euler self dt p]).
Proof.
  unfold ultimo, run_body. intros Hp.
  destruct (last_item (self_I self)) as [i|]; [|discriminate].
  destruct (last_item (self_S self)) as [s|]; [|discriminate].
  destruct (last_item (self_C self)) as [c|]; [|discriminate].
  destruct (last_item (self_D self)) as [d|]; [|discriminate].
  destruct (last_item (self_time self)) as [t|]; [|discriminate].
  simpl in Hp. injection Hp as <-. reflexivity.
Qed.

Lemma orbit_extend (self : Doenca) (ps : list ponto) (dt : T) (n : nat) :
  forall p, orbit (extend self ps) dt n p = orbit self dt n p.
Proof. induction n as [|n IH]; intros p; simpl; [|rewrite IH]; reflexivity. Qed.

(** The loop of [run] appends the orbit of the last snapshot. *)
Lemma for_range_orbit (dt : T) (n : nat) :
  forall (self : Doenca) (p : ponto),
    ultimo self = Ok p ->
    for_range n (run_body dt) self = Ok (extend self (orbit self dt n p)).
Proof.
  induction n as [|n IH]; intros self p Hp; simpl.
  - now rewrite extend_nil.
  - rewrite (run_body_extend self dt p Hp). simpl.
    rewrite (IH _ _ (ultimo_extend_one self (euler self dt p))).
    now rewrite extend_extend, orbit_extend.
Qed.

Lemma after_S (self : Doenca) (dt : T) (k : nat) (p : ponto) :
  after self dt (Datatypes.S k) p = euler self dt (after self dt k p).
Proof. reflexivity. Qed.

Lemma after_succ_r (self : Doenca) (dt : T) (k : nat) (p : ponto) :
  after self dt (Datatypes.S k) p = after self dt k (euler self dt p).
Proof. unfold after. now rewrite Nat.iter_succ_r. Qed.

Lemma nth_error_trajectory (self : Doenca) (dt : T) (n : nat) :
  forall (k : nat) (p : ponto),
    (k <= n)%nat ->
    nth_error (p :: orbit self dt n p) k = Some (after self dt k p).
Proof.
  induction n as [|n IH]; intros k p Hk.
  - assert (k = 0%nat) by lia. now subst.
  - destruct k as [|k]; [reflexivity|].
    rewrite after_succ_r. simpl. apply IH. lia.
Qed.

Lemma nth_trajectory (f : ponto -> T) (d : T) (self : Doenca) (dt : T)
      (n k : nat) (p : ponto) :
  (k <= n)%nat ->
  nth k (map f (p :: orbit self dt n p)) d = f (after self dt k p).
Proof.
  intros Hk. apply nth_error_nth.
  now rewrite nth_error_map, nth_error_trajectory.
Qed.

Lemma length_orbit (self : Doenca) (dt : T) (n : nat) :
  forall p, length (orbit self dt n p) = n.
Proof. induction n as [|n IH]; intros p; simpl; [|rewrite IH]; reflexivity. Qed.

(** What [run_iterando] returns on a fresh instance. *)
Lemma run_iterando_novo (populacao beta gama tDeath infectado curado mortos
                         simulationTime leitos : T) (z : Z) :
  run_steps (novo populacao beta gama tDeath infectado curado mortos
                  simulationTime leitos) = Ok z ->
  run_iterando (novo populacao beta gama tDeath infectado curado mortos
                     simulationTime leitos)
  = Ok (extend (novo populacao beta gama tDeath infectado curado mortos
                     simulationTime leitos)
               (orbit (novo populacao beta gama tDeath infectado curado mortos
                            simulationTime leitos)
                      lit_0_01 (Z.to_nat z)
                      (inicio populacao infectado curado mortos))).
Proof.
  intros Hz. unfold run_iterando. rewrite Hz. simpl.
  apply for_range_orbit. apply ultimo_novo.
Qed.

(** The lists after the scaling of lines 118 to 121. *)
Lemma absoluto_lists (m : Doenca) :
  self_I (run_absoluto m) = map (fun x => x * self_populacao m) (self_I m) /\
  self_C (run_absoluto m) = map (fun x => x * self_populacao m) (self_C m) /\
  self_D (run_absoluto m) = map (fun x => x * self_populacao m) (self_D m) /\
  self_S (run_absoluto m) = map (fun x => x * self_populacao m) (self_S m) /\
  self_time (run_absoluto m) = self_time m /\
  self_leitos (run_absoluto m) = self_leitos m.
Proof. repeat split. Qed.

End ModelFacts.

(** ** A run from [__init__] to the end of [run] *)

Section Simulation.

Context {T : Type} `{PyNumber T}.

Variables populacao beta gama tDeath infectado curado mortos
          simulationTime leitos : T.

Local Open Scope py_scope.

Let self0 : Doenca :=
  novo populacao beta gama tDeath infectado curado mortos simulationTime leitos.

Let p0 : ponto := inicio populacao infectado curado mortos.

Lemma simulacao_fracoes_novo (z : Z) :
  is_zero populacao = false ->
  run_steps self0 = Ok z ->
  simulacao_fracoes populacao beta gama tDeath infectado curado mortos
                    simulationTime leitos
  = Ok (extend self0 (orbit self0 lit_0_01 (Z.to_nat z) p0)).
Proof.
  intros Hp Hz. unfold simulacao_fracoes. rewrite (init_novo _ _ _ _ _ _ _ _ _ Hp).
  simpl. now apply run_iterando_novo.
Qed.

Lemma simulacao_novo (z : Z) :
  is_zero populacao = false ->
  run_steps self0 = Ok z ->
  simulacao populacao beta gama tDeath infectado curado mortos
            simulationTime leitos
  = Ok (run_absoluto (extend self0 (orbit self0 lit_0_01 (Z.to_nat z) p0))).
Proof.
  intros Hp Hz. unfold simulacao. rewrite (init_novo _ _ _ _ _ _ _ _ _ Hp).
  simpl. unfold run.
  now rewrite (run_iterando_novo _ _ _ _ _ _ _ _ _ z Hz).
Qed.

(** The entries of the lists at the end of the loop. *)
Lemma entries_fracoes (n k : nat) (d : T) :
  (k <= n)%nat ->
  let m := extend self0 (orbit self0 lit_0_01 n p0) in
  nth k (self_I m) d = pI (after self0 lit_0_01 k p0) /\
  nth k (self_C m) d = pC (after self0 lit_0_01 k p0) /\
  nth k (self_D m) d = pD (after self0 lit_0_01 k p0) /\
  nth k (self_S m) d = pS (after self0 lit_0_01 k p0) /\
  nth k (self_time m) d = ptime (after self0 lit_0_01 k p0).
Proof.
  intros Hk m. repeat split.
  - exact (nth_trajectory pI d self0 lit_0_01 n k p0 Hk).
  - exact (nth_trajectory pC d self0 lit_0_01 n k p0 Hk).
  - exact (nth_trajectory pD d self0 lit_0_01 n k p0 Hk).
  - exact (nth_trajectory pS d self0 lit_0_01 n k p0 Hk).
  - exact (nth_trajectory ptime d self0 lit_0_01 n k p0 Hk).
Qed.

Lemma lengths_fracoes (n : nat) :
  let m := extend self0 (orbit self0 lit_0_01 n p0) in
  length (self_I m) = Datatypes.S n /\
  length (self_C m) = Datatypes.S n /\
  length (self_D m) = Datatypes.S n /\
  length (self_S m) = Datatypes.S n /\
  length (self_time m) = Datatypes.S n /\
  length (self_leitos m) = Datatypes.S n.
Proof.
  intros m. unfold m, extend. simpl.
  now rewrite !length_map, length_orbit.
Qed.

Lemma leitos_fracoes (n : nat) :
  self_leitos (extend self0 (orbit self0 lit_0_01 n p0))
  = leitos :: repeat (of_int 744) n.
Proof.
  unfold extend. simpl. f_equal.
  generalize p0. induction n as [|n IH]; intros p; simpl; [|rewrite IH];
    reflexivity.
Qed.

End Simulation.

(** * Claims that hold for every number type *)

Section Claims_generic.

Context {T : Type} `{PyNumber T}.

Variables populacao beta gama tDeath infectado curado mortos
          simulationTime leitos : T.

Local Open Scope py_scope.

(** C1 (as amended).  [__init__] validates nothing: it raises exactly when
    [populacao] is zero, and then the exception is the [ZeroDivisionError] of
    the first division; for every other argument list, whatever the signs or
    sizes of the parameters, it returns the instance [novo]. *)
Theorem init_raises_only_on_zero_population :
  if is_zero populacao
  then init populacao beta gama tDeath infectado curado mortos
            simulationTime leitos = Raise ZeroDivisionError
  else init populacao beta gama tDeath infectado curado mortos
            simulationTime leitos
       = Ok (novo populacao beta gama tDeath infectado curado mortos
                  simulationTime leitos).
Proof.
  destruct (is_zero populacao) eqn:Hz.
  - now apply init_zero.
  - now apply init_novo.
Qed.

(** C3.  Whenever the loop makes more than [k] passes, the entries at index
    [k + 1] of [I], [C], [D], [S] and [time] are the five right-hand sides
    of lines 104 to 108 evaluated on the entries at index [k]: every pass
    reads only the previous snapshot, none of the values it has just
    computed. *)
Theorem run_body_reads_previous_snapshot (self : Doenca) (z : Z) (k : nat) :
  init populacao beta gama tDeath infectado curado mortos simulationTime leitos
  = Ok self ->
  run_steps self = Ok z ->
  (k < Z.to_nat z)%nat ->
  exists m : Doenca,
    run_iterando self = Ok m /\
    exists I_prev C_prev D_prev S_prev time_prev : T,
      nth_error (self_I m) k = Some I_prev /\
      nth_error (self_C m) k = Some C_prev /\
      nth_error (self_D m) k = Some D_prev /\
      nth_error (self_S m) k = Some S_prev /\
      nth_error (self_time m) k = Some time_prev /\
      nth_error (self_I m) (Datatypes.S k)
      = Some (I_prev + (beta * I_prev * S_prev - gama * I_prev) * lit_0_01) /\
      nth_error (self_C m) (Datatypes.S k)
      = Some (C_prev + (gama * (of_int 1 - tDeath) * I_prev) * lit_0_01) /\
      nth_error (self_D m) (Datatypes.S k)
      = Some (D_prev + (tDeath * gama * I_prev) * lit_0_01) /\
      nth_error (self_S m) (Datatypes.S k)
      = Some (S_prev - (beta * I_prev * S_prev) * lit_0_01) /\
      nth_error (self_time m) (Datatypes.S k) = Some (time_prev + lit_0_01).
Proof.
  intros Hinit Hz Hk.
  destruct (is_zero populacao) eqn:Hp.
  - rewrite (init_zero _ _ _ _ _ _ _ _ _ Hp) in Hinit. discriminate.
  - rewrite (init_novo _ _ _ _ _ _ _ _ _ Hp) in Hinit.
    injection Hinit as <-.
    eexists. split; [exact (run_iterando_novo _ _ _ _ _ _ _ _ _ z Hz)|].
    set (self := novo populacao beta gama tDeath infectado curado mortos
                      simulationTime leitos).
    set (p0 := inicio populacao infectado curado mortos).
    set (q := after self lit_0_01 k p0).
    exists (pI q), (pC q), (pD q), (pS q), (ptime q).
    assert (Hk0 : (k <= Z.to_nat z)%nat) by lia.
    assert (Hk1 : (Datatypes.S k <= Z.to_nat z)%nat) by lia.
    pose proof (nth_error_trajectory self lit_0_01 _ _ p0 Hk0) as E0.
    pose proof (nth_error_trajectory self lit_0_01 _ _ p0 Hk1) as E1.
    unfold extend; simpl self_I; simpl self_C; simpl self_D; simpl self_S;
      simpl self_time.
    change (after self lit_0_01 (Datatypes.S k) p0)
      with (euler self lit_0_01 q) in E1.
    repeat split;
      match goal with
      | |- nth_error (_ :: map ?f _) k = _ =>
          change (nth_error (map f (p0 :: orbit self lit_0_01 (Z.to_nat z) p0)) k
                  = Some (f q));
          now rewrite nth_error_map, E0
      | |- nth_error (_ :: map ?f _) (Datatypes.S k) = _ =>
          change (nth_error (map f (p0 :: orbit self lit_0_01 (Z.to_nat z) p0))
                            (Datatypes.S k)
                  = Some (f (euler self lit_0_01 q)));
          now rewrite nth_error_map, E1
      end.
Qed.

(** The shape of the result of [run], for every number type: when
    [populacao] is not zero and [int(simulationTime / dt)] is the integer
    [z], [run] returns, the six lists have [z + 1] entries (one entry if
    [z] is negative), [time] starts at 0 and each of its entries is the
    previous one plus [dt]. *)
Lemma run_lengths_every_number_type (z : Z) :
  is_zero populacao = false ->
  run_steps (novo populacao beta gama tDeath infectado curado mortos
                  simulationTime leitos) = Ok z ->
  exists m : Doenca,
    simulacao populacao beta gama tDeath infectado curado mortos
              simulationTime leitos = Ok m /\
    length (self_time m) = Datatypes.S (Z.to_nat z) /\
    length (self_S m) = Datatypes.S (Z.to_nat z) /\
    length (self_I m) = Datatypes.S (Z.to_nat z) /\
    length (self_C m) = Datatypes.S (Z.to_nat z) /\
    length (self_D m) = Datatypes.S (Z.to_nat z) /\
    length (self_leitos m) = Datatypes.S (Z.to_nat z) /\
    nth_error (self_time m) 0 = Some (of_int 0) /\
    forall k : nat,
      (k < Z.to_nat z)%nat ->
      exists t : T,
        nth_error (self_time m) k = Some t /\
        nth_error (self_time m) (Datatypes.S k) = Some (t + lit_0_01).
Proof.
  intros Hp Hz.
  set (self := novo populacao beta gama tDeath infectado curado mortos
                    simulationTime leitos).
  set (p0 := inicio populacao infectado curado mortos).
  destruct (lengths_fracoes populacao beta gama tDeath infectado curado mortos
                            simulationTime leitos (Z.to_nat z))
    as (LI & LC & LD & LS & LT & LL).
  destruct (absoluto_lists (extend self (orbit self lit_0_01 (Z.to_nat z) p0)))
    as (AI & AC & AD & AS & AT & AL).
  eexists. split; [exact (simulacao_novo _ _ _ _ _ _ _ _ _ z Hp Hz)|].
  fold self p0. rewrite AI, AC, AD, AS, AT, AL, !length_map.
  do 6 (split; [assumption|]).
  split; [reflexivity|].
  intros k Hk. exists (ptime (after self lit_0_01 k p0)).
  change (self_time (extend self (orbit self lit_0_01 (Z.to_nat z) p0)))
    with (map ptime (p0 :: orbit self lit_0_01 (Z.to_nat z) p0)).
  rewrite !nth_error_map, !nth_error_trajectory by lia.
  split; reflexivity.
Qed.

End Claims_generic.

(** ** Exact arithmetic *)

Section Exact_facts.

Import Exact.

Variables populacao beta gama tDeath infectado curado mortos
          simulationTime leitos : Q.

Let self0 : Doenca :=
  novo populacao beta gama tDeath infectado curado mortos simulationTime leitos.

Let p0 : ponto := inicio populacao infectado curado mortos.

Let dt : Q := lit_0_01.

(** The number of passes of the loop. *)
Let passos : nat :=
  Z.to_nat (Z.quot (Qnum (simulationTime / (1 # 100)))
                   (Zpos (Qden (simulationTime / (1 # 100))))).

Lemma Q_is_zero_false (x : Q) : ~ x == 0 -> is_zero x = false.
Proof.
  intros Hx. simpl. destruct (Qeq_bool x 0) eqn:E; [|reflexivity].
  now apply Qeq_bool_iff in E.
Qed.

Lemma Q_run_steps :
  run_steps self0
  = Ok (Z.quot (Qnum (simulationTime / (1 # 100)))
               (Zpos (Qden (simulationTime / (1 # 100))))).
Proof. reflexivity. Qed.

Lemma Q_simulacao_fracoes :
  ~ populacao == 0 ->
  simulacao_fracoes populacao beta gama tDeath infectado curado mortos
                    simulationTime leitos
  = Ok (extend self0 (orbit self0 dt passos p0)).
Proof.
  intros Hp.
  exact (simulacao_fracoes_novo _ _ _ _ _ _ _ _ _ _
                                (Q_is_zero_false _ Hp) Q_run_steps).
Qed.

Lemma Q_simulacao :
  ~ populacao == 0 ->
  simulacao populacao beta gama tDeath infectado curado mortos
            simulationTime leitos
  = Ok (run_absoluto (extend self0 (orbit self0 dt passos p0))).
Proof.
  intros Hp.
  exact (simulacao_novo _ _ _ _ _ _ _ _ _ _
                        (Q_is_zero_false _ Hp) Q_run_steps).
Qed.

(** One pass leaves the sum of the four compartments unchanged: the four
    increments cancel because [tDeath * gama + gama * (1 - tDeath)] is
    [gama]. *)
Lemma euler_soma (p : ponto) : soma (euler self0 dt p) == soma p.
Proof. unfold soma, euler, self0, dt. simpl. ring. Qed.

Lemma after_soma (k : nat) : soma (after self0 dt k p0) == soma p0.
Proof.
  induction k as [|k IH]; [reflexivity|].
  now rewrite after_S, euler_soma.
Qed.

Lemma soma_inicio :
  ~ populacao == 0 -> soma p0 == 1 + (curado + mortos) / populacao.
Proof. intros Hp. unfold soma, p0, inicio. simpl. now field. Qed.

Lemma soma_at_fracoes (k : nat) :
  (k <= passos)%nat ->
  soma_at (extend self0 (orbit self0 dt passos p0)) k
  = soma (after self0 dt k p0).
Proof.
  intros Hk. unfold soma_at, soma.
  destruct (entries_fracoes populacao beta gama tDeath infectado curado mortos
                            simulationTime leitos passos k 0 Hk)
    as (EI & EC & ED & ES & _).
  fold self0 p0 dt in EI, EC, ED, ES.
  now rewrite EI, EC, ED, ES.
Qed.

Lemma Q_lengths :
  let m := extend self0 (orbit self0 dt passos p0) in
  length (self_I m) = Datatypes.S passos /\
  length (self_C m) = Datatypes.S passos /\
  length (self_D m) = Datatypes.S passos /\
  length (self_S m) = Datatypes.S passos /\
  length (self_time m) = Datatypes.S passos /\
  length (self_leitos m) = Datatypes.S passos.
Proof.
  exact (lengths_fracoes populacao beta gama tDeath infectado curado mortos
                         simulationTime leitos passos).
Qed.

Lemma Q_entries (k : nat) :
  (k <= passos)%nat ->
  let m := extend self0 (orbit self0 dt passos p0) in
  nth k (self_I m) 0 = pI (after self0 dt k p0) /\
  nth k (self_C m) 0 = pC (after self0 dt k p0) /\
  nth k (self_D m) 0 = pD (after self0 dt k p0) /\
  nth k (self_S m) 0 = pS (after self0 dt k p0) /\
  nth k (self_time m) 0 = ptime (after self0 dt k p0).
Proof.
  exact (entries_fracoes populacao beta gama tDeath infectado curado mortos
                         simulationTime leitos passos k 0).
Qed.

(** The entries after the scaling of lines 118 to 121. *)
Lemma nth_absoluto (pop : Q) (l : list Q) :
  forall k : nat, nth k (map (fun x => mul x pop) l) 0 == nth k l 0 * pop.
Proof.
  induction l as [|a l IH]; intros [|k]; simpl; try ring.
  apply IH.
Qed.


(** C10.  In exact arithmetic every pass of the loop conserves
    [S + I + C + D]: for all [beta], [gama] and [tDeath], and at every pair
    of consecutive recorded indices, the sum at [k + 1] equals the sum at
    [k]. *)
Theorem euler_step_conserves_sum :
  ~ populacao == 0 ->
  exists m : Doenca,
    simulacao_fracoes populacao beta gama tDeath infectado curado mortos
                      simulationTime leitos = Ok m /\
    forall k : nat,
      (Datatypes.S k < length (self_S m))%nat ->
      soma_at m (Datatypes.S k) == soma_at m k.
Proof.
  intros Hp. eexists. split; [exact (Q_simulacao_fracoes Hp)|].
  intros k Hk. destruct Q_lengths as (_ & _ & _ & HS & _).
  rewrite HS in Hk.
  rewrite !soma_at_fracoes by lia.
  now rewrite !after_soma.
Qed.

(** In exact arithmetic the fractional sum at every recorded index is the
    initial one, [1 + (curado + mortos) / populacao]: line 91 takes only
    [infectado] out of [populacao], and the loop conserves what it is
    given. *)
Lemma fractional_sum_is_initial_sum :
  ~ populacao == 0 ->
  exists m : Doenca,
    simulacao_fracoes populacao beta gama tDeath infectado curado mortos
                      simulationTime leitos = Ok m /\
    forall k : nat,
      (k < length (self_S m))%nat ->
      soma_at m k == 1 + (curado + mortos) / populacao.
Proof.
  intros Hp. eexists. split; [exact (Q_simulacao_fracoes Hp)|].
  intros k Hk. destruct Q_lengths as (_ & _ & _ & HS & _).
  rewrite HS in Hk.
  rewrite soma_at_fracoes by lia.
  now rewrite after_soma, (soma_inicio Hp).
Qed.


(** C6 (as amended).  In exact arithmetic the two derived coefficients add
    up to [gama]: [tDeath * gama + gama * (1 - tDeath) == gama]. *)
Theorem derived_rates_sum_to_gama :
  ~ populacao == 0 ->
  exists self : Doenca,
    init populacao beta gama tDeath infectado curado mortos
         simulationTime leitos = Ok self /\
    self_tDeath self = tDeath * gama /\
    self_tCuradas self = gama * (1 - tDeath) /\
    self_gama self = gama /\
    self_tDeath self + self_tCuradas self == self_gama self.
Proof.
  intros Hp. exists self0. split.
  - exact (init_novo _ _ _ _ _ _ _ _ _ (Q_is_zero_false _ Hp)).
  - unfold self0. simpl. repeat split. ring.
Qed.

(** *** No recovery: [gama == 0] *)

Lemma euler_frame (p : ponto) :
  gama == 0 ->
  pC (euler self0 dt p) == pC p /\ pD (euler self0 dt p) == pD p.
Proof.
  intros Hg. unfold euler, self0, dt. simpl. split.
  - transitivity (pC p + 0 * (1 - tDeath) * pI p * (1 # 100)); [|ring].
    now rewrite Hg.
  - transitivity (pD p + tDeath * 0 * pI p * (1 # 100)); [|ring].
    now rewrite Hg.
Qed.

Lemma after_frame (k : nat) :
  gama == 0 ->
  pC (after self0 dt k p0) == pC p0 /\ pD (after self0 dt k p0) == pD p0.
Proof.
  intros Hg. induction k as [|k [IHC IHD]]; [split; reflexivity|].
  rewrite after_S.
  destruct (euler_frame (after self0 dt k p0) Hg) as [EC ED].
  split; [now rewrite EC | now rewrite ED].
Qed.

(** In exact arithmetic, when [gama] is zero the lists [C] and [D] keep
    their first entry at every recorded index, both as fractions (at the
    end of the loop) and as absolute numbers (at the end of [run]). *)
Lemma gama_zero_freezes_C_and_D :
  ~ populacao == 0 ->
  gama == 0 ->
  (exists m : Doenca,
     simulacao_fracoes populacao beta gama tDeath infectado curado mortos
                       simulationTime leitos = Ok m /\
     constant (self_C m) /\ constant (self_D m)) /\
  (exists m : Doenca,
     simulacao populacao beta gama tDeath infectado curado mortos
               simulationTime leitos = Ok m /\
     constant (self_C m) /\ constant (self_D m)).
Proof.
  intros Hp Hg.
  assert (Hfr : forall k : nat,
             (k <= passos)%nat ->
             let m := extend self0 (orbit self0 dt passos p0) in
             nth k (self_C m) 0 == nth 0 (self_C m) 0 /\
             nth k (self_D m) 0 == nth 0 (self_D m) 0).
  { intros k Hk m.
    destruct (Q_entries k Hk) as (_ & EC & ED & _).
    destruct (Q_entries 0 (Nat.le_0_l _)) as (_ & EC0 & ED0 & _).
    fold m in EC, ED, EC0, ED0. rewrite EC, ED, EC0, ED0.
    exact (after_frame k Hg). }
  destruct Q_lengths as (_ & HC & HD & _).
  destruct (absoluto_lists (extend self0 (orbit self0 dt passos p0)))
    as (_ & AC & AD & _).
  split.
  - eexists. split; [exact (Q_simulacao_fracoes Hp)|].
    split; intros k Hk; [rewrite HC in Hk | rewrite HD in Hk];
      apply Hfr; lia.
  - eexists. split; [exact (Q_simulacao Hp)|].
    split; intros k Hk.
    + rewrite AC in *. rewrite length_map, HC in Hk.
      rewrite !nth_absoluto.
      destruct (Hfr k ltac:(lia)) as [EC _]. now rewrite EC.
    + rewrite AD in *. rewrite length_map, HD in Hk.
      rewrite !nth_absoluto.
      destruct (Hfr k ltac:(lia)) as [_ ED]. now rewrite ED.
Qed.

(** *** Valid parameter sets *)

Hypothesis Hvalid :
  valid populacao beta gama tDeath infectado curado mortos simulationTime
        leitos.




(** *** No transmission: [beta == 0] *)




(** *** Contact rates within the step: [beta <= 100], [gama <= 100] *)




(** *** The time axis *)



End Exact_facts.

(** ** Binary64: zeros and the loop *)

Section Binary64_facts.

Local Open Scope float_scope.

(** Two floats are equal for [==] when they are the same number, not NaN,
    or when both are zeros (of any sign). *)
Lemma SFeqb_true (x y : spec_float) :
  SFeqb x y = true ->
  (x = y /\ x <> S754_nan) \/
  (exists sx sy, x = S754_zero sx /\ y = S754_zero sy).
Proof.
  unfold SFeqb.
  destruct x as [sx| sx| |sx mx ex], y as [sy| sy| |sy my ey]; simpl;
    try discriminate;
    try (destruct sx; discriminate); try (destruct sy; discriminate).
  - intros _. right. now exists sx, sy.
  - destruct sx, sy; simpl; try discriminate; intros _; left;
      split; try reflexivity; discriminate.
  - destruct sx, sy; try discriminate;
      destruct (Z.compare ex ey) eqn:Ee; try discriminate;
      destruct (Pos.compare_cont Eq mx my) eqn:Em; try discriminate;
      intros _; apply Z.compare_eq in Ee; apply Pos.compare_eq in Em;
      subst; left; split; try reflexivity; discriminate.
Qed.

Lemma SFeqb_refl (x : spec_float) : x <> S754_nan -> SFeqb x x = true.
Proof.
  unfold SFeqb. destruct x as [s|s| |s m e]; simpl; intros Hx.
  - reflexivity.
  - now destruct s.
  - now elim Hx.
  - destruct s; now rewrite Z.compare_refl, Pos.compare_cont_refl.
Qed.

Lemma Prim2SF_0 : Prim2SF 0 = S754_zero false.
Proof. vm_compute. reflexivity. Qed.

Lemma Prim2SF_infinity : Prim2SF infinity = S754_infinity false.
Proof. vm_compute. reflexivity. Qed.

Lemma Prim2SF_zero_of_eqb (x : float) :
  (x =? 0) = true -> exists s, Prim2SF x = S754_zero s.
Proof.
  rewrite FloatAxioms.eqb_spec, Prim2SF_0. intros Hx.
  destruct (SFeqb_true _ _ Hx) as [[E _]|(sx & sy & E & _)].
  - exists false. exact E.
  - now exists sx.
Qed.

Lemma Prim2SF_finite (x : float) :
  is_finite x = true ->
  (exists s, Prim2SF x = S754_zero s) \/
  (exists s m e, Prim2SF x = S754_finite s m e).
Proof.
  unfold is_finite, is_nan, is_infinity.
  rewrite !FloatAxioms.eqb_spec, FloatAxioms.abs_spec, Prim2SF_infinity.
  destruct (Prim2SF x) as [s|s| |s m e]; simpl.
  - intros _. left. now exists s.
  - destruct s; discriminate.
  - discriminate.
  - intros _. right. now exists s, m, e.
Qed.

Lemma is_finite_of_Prim2SF (x : float) :
  (exists s, Prim2SF x = S754_zero s) \/
  (exists s m e, Prim2SF x = S754_finite s m e) ->
  is_finite x = true.
Proof.
  unfold is_finite, is_nan, is_infinity.
  rewrite !FloatAxioms.eqb_spec, FloatAxioms.abs_spec, Prim2SF_infinity.
  intros [[s E]|(s & m & e & E)]; rewrite E.
  - reflexivity.
  - simpl. unfold SFeqb. simpl.
    destruct s; now rewrite Z.compare_refl, Pos.compare_cont_refl.
Qed.

(** A difference is finite only if the float taken away is. *)
Lemma sub_finite_r (x y : float) :
  is_finite (x - y) = true -> is_finite y = true.
Proof.
  intros H. apply Prim2SF_finite in H.
  rewrite FloatAxioms.sub_spec in H.
  apply is_finite_of_Prim2SF.
  destruct (Prim2SF y) as [s|s| |s m e] eqn:Ey.
  - left. now exists s.
  - exfalso. destruct (Prim2SF x) as [sx|sx| |sx mx ex];
      simpl in H; destruct H as [[? H]|(? & ? & ? & H)];
      try discriminate; destruct sx, s; discriminate.
  - exfalso. destruct (Prim2SF x) as [sx|sx| |sx mx ex];
      simpl in H; destruct H as [[? H]|(? & ? & ? & H)]; discriminate.
  - right. now exists s, m, e.
Qed.

(** A zero times a finite float is a zero. *)
Lemma mul_zero_finite (x y : float) :
  (x =? 0) = true -> is_finite y = true -> (x * y =? 0) = true.
Proof.
  intros Hx Hy.
  destruct (Prim2SF_zero_of_eqb x Hx) as [sx Ex].
  rewrite FloatAxioms.eqb_spec, FloatAxioms.mul_spec, Ex, Prim2SF_0.
  destruct (Prim2SF_finite y Hy) as [[sy Ey]|(sy & my & ey & Ey)];
    rewrite Ey; reflexivity.
Qed.

Lemma mul_finite_zero (x y : float) :
  is_finite x = true -> (y =? 0) = true -> (x * y =? 0) = true.
Proof.
  intros Hx Hy.
  destruct (Prim2SF_zero_of_eqb y Hy) as [sy Ey].
  rewrite FloatAxioms.eqb_spec, FloatAxioms.mul_spec, Ey, Prim2SF_0.
  destruct (Prim2SF_finite x Hx) as [[sx Ex]|(sx & mx & ex & Ex)];
    rewrite Ex; reflexivity.
Qed.

(** Adding a zero to a float that is not NaN gives a float equal to it. *)
Lemma add_zero_r (x z : float) :
  (z =? 0) = true -> is_nan x = false -> (x + z =? x) = true.
Proof.
  intros Hz Hx.
  destruct (Prim2SF_zero_of_eqb z Hz) as [sz Ez].
  unfold is_nan in Hx. rewrite FloatAxioms.eqb_spec in Hx.
  rewrite FloatAxioms.eqb_spec, FloatAxioms.add_spec, Ez.
  destruct (Prim2SF x) as [s|s| |s m e] eqn:Ex.
  - destruct s, sz; reflexivity.
  - destruct s; reflexivity.
  - discriminate.
  - simpl. apply negb_false_iff in Hx. exact Hx.
Qed.

Lemma eqb_trans (x y z : float) :
  (x =? y) = true -> (y =? z) = true -> (x =? z) = true.
Proof.
  rewrite !FloatAxioms.eqb_spec. intros Hxy Hyz.
  destruct (SFeqb_true _ _ Hxy) as [[E1 N1]|(s1 & s2 & E1 & E2)].
  - now rewrite E1.
  - rewrite E1. rewrite E2 in Hyz.
    destruct (SFeqb_true _ _ Hyz) as [[E3 _]|(s3 & s4 & _ & E4)].
    + now rewrite <- E3.
    + now rewrite E4.
Qed.

Lemma eqb_not_nan (x y : float) : (x =? y) = true -> is_nan x = false.
Proof.
  unfold is_nan. rewrite !FloatAxioms.eqb_spec. intros Hxy.
  apply negb_false_iff.
  destruct (SFeqb_true _ _ Hxy) as [[_ N]|(s1 & s2 & E1 & _)].
  - now apply SFeqb_refl.
  - now rewrite E1.
Qed.

Lemma eqb_refl_not_nan (x : float) : is_nan x = false -> (x =? x) = true.
Proof. unfold is_nan. intros Hx. now apply negb_false_iff in Hx. Qed.

Variables populacao beta gama tDeath infectado curado mortos
          simulationTime leitos : float.

Let self0 : Doenca :=
  novo populacao beta gama tDeath infectado curado mortos simulationTime leitos.

Let p0 : ponto := inicio populacao infectado curado mortos.

Hypothesis Hgama : (gama =? 0) = true.
Hypothesis HtDeath : is_finite (1 - tDeath) = true.

Lemma rates_zero_binary64 :
  (self_tCuradas self0 =? 0) = true /\ (self_tDeath self0 =? 0) = true.
Proof.
  split.
  - exact (mul_zero_finite gama (1 - tDeath) Hgama HtDeath).
  - exact (mul_finite_zero tDeath gama (sub_finite_r 1 tDeath HtDeath) Hgama).
Qed.

Lemma is_finite_0_01 : is_finite 0.01 = true.
Proof. vm_compute. reflexivity. Qed.

Lemma euler_frame_binary64 (p : ponto) :
  is_finite (pI p) = true ->
  (is_nan (pC p) = false -> (pC (euler self0 lit_0_01 p) =? pC p) = true) /\
  (is_nan (pD p) = false -> (pD (euler self0 lit_0_01 p) =? pD p) = true).
Proof.
  intros Hi. destruct rates_zero_binary64 as [HC HD].
  split; intros Hn; apply add_zero_r; try exact Hn;
    apply mul_zero_finite; try exact is_finite_0_01;
    apply mul_zero_finite; assumption.
Qed.

Lemma after_frame_binary64 (k : nat) :
  (forall j : nat, (j < k)%nat ->
                   is_finite (pI (after self0 lit_0_01 j p0)) = true) ->
  (is_nan (pC p0) = false ->
   (pC (after self0 lit_0_01 k p0) =? pC p0) = true) /\
  (is_nan (pD p0) = false ->
   (pD (after self0 lit_0_01 k p0) =? pD p0) = true).
Proof.
  induction k as [|k IH]; intros Hfin.
  - split; intros Hn; now apply eqb_refl_not_nan.
  - destruct IH as [IHC IHD]; [intros j Hj; apply Hfin; lia|].
    rewrite after_S.
    destruct (euler_frame_binary64 (after self0 lit_0_01 k p0)
                                   (Hfin k (Nat.lt_succ_diag_r k)))
      as [EC ED].
    split; intros Hn.
    + apply eqb_trans with (y := pC (after self0 lit_0_01 k p0)).
      * apply EC. apply eqb_not_nan with (y := pC p0). now apply IHC.
      * now apply IHC.
    + apply eqb_trans with (y := pD (after self0 lit_0_01 k p0)).
      * apply ED. apply eqb_not_nan with (y := pD p0). now apply IHD.
      * now apply IHD.
Qed.

(** C8 (as amended).  In binary64, when [gama] is a zero and [1 - tDeath]
    is finite (as for every [tDeath] between 0 and 1), the loop completes
    and every entry of [C] and of [D] is equal ([==]) to the first one up to
    the first index at which [I] stops being finite; the first entries are
    asked not to be NaN. *)
Theorem gama_zero_freezes_C_and_D_while_finite (z : Z) :
  (populacao =? 0) = false ->
  Binary64.float_to_int (simulationTime / 0.01) = Ok z ->
  exists m : Doenca,
    simulacao_fracoes populacao beta gama tDeath infectado curado mortos
                      simulationTime leitos = Ok m /\
    length (self_C m) = Datatypes.S (Z.to_nat z) /\
    length (self_D m) = Datatypes.S (Z.to_nat z) /\
    forall k : nat,
      (k < length (self_C m))%nat ->
      (forall j : nat, (j < k)%nat ->
                       is_finite (nth j (self_I m) 0) = true) ->
      (is_nan (nth 0 (self_C m) 0) = false ->
       (nth k (self_C m) 0 =? nth 0 (self_C m) 0) = true) /\
      (is_nan (nth 0 (self_D m) 0) = false ->
       (nth k (self_D m) 0 =? nth 0 (self_D m) 0) = true).
Proof.
  intros Hp Hz.
  assert (Hsteps : run_steps self0 = Ok z) by exact Hz.
  assert (Hpop : is_zero populacao = false) by exact Hp.
  destruct (lengths_fracoes populacao beta gama tDeath infectado curado mortos
                            simulationTime leitos (Z.to_nat z))
    as (_ & LC & LD & _).
  eexists.
  split; [exact (simulacao_fracoes_novo _ _ _ _ _ _ _ _ _ z Hpop Hsteps)|].
  split; [exact LC|]. split; [exact LD|].
  intros k Hk Hfin. rewrite LC in Hk.
  destruct (entries_fracoes populacao beta gama tDeath infectado curado mortos
                            simulationTime leitos (Z.to_nat z) k 0
                            ltac:(lia)) as (_ & EC & ED & _).
  destruct (entries_fracoes populacao beta gama tDeath infectado curado mortos
                            simulationTime leitos (Z.to_nat z) 0 0
                            ltac:(lia)) as (_ & EC0 & ED0 & _).
  rewrite EC, ED, EC0, ED0.
  apply after_frame_binary64.
  intros j Hj.
  destruct (entries_fracoes populacao beta gama tDeath infectado curado mortos
                            simulationTime leitos (Z.to_nat z) j 0
                            ltac:(lia)) as (EI & _).
  specialize (Hfin j Hj). rewrite EI in Hfin. exact Hfin.
Qed.

End Binary64_facts.

(** * Executions

    Closed runs of the two instances: the inputs on which a claim fails,
    and an instance of every statement above that carries a hypothesis. *)

Section Executions.

Local Open Scope float_scope.

(** C1 fails.  Six argument lists, one for each condition the claim names
    (population at most 0, negative [beta], negative [gama], [tDeath]
    outside [0,1], more infected than inhabitants, a simulation time at
    most 0): [__init__] returns an instance for each of them. *)
Lemma init_accepts_invalid_parameters :
  (exists self : Doenca,
      init (-1) 0.3 0.25 0.04 0 0 0 360 0 = Ok self) /\
  (exists self : Doenca,
      init 900000 (-0.3) 0.25 0.04 5100 0 0 360 5623 = Ok self) /\
  (exists self : Doenca,
      init 900000 0.3 (-0.25) 0.04 5100 0 0 360 5623 = Ok self) /\
  (exists self : Doenca,
      init 900000 0.3 0.25 1.5 5100 0 0 360 5623 = Ok self) /\
  (exists self : Doenca,
      init 900000 0.3 0.25 0.04 900001 0 0 360 5623 = Ok self) /\
  (exists self : Doenca,
      init 900000 0.3 0.25 0.04 5100 0 0 (-360) 5623 = Ok self).
Proof. repeat split; eexists; vm_compute; reflexivity. Qed.


(** C6 fails in binary64.  For [gama = 0.1] and [tDeath = 0.2] the two
    coefficients [__init__] stores add up to 0.10000000000000002, the float
    next above [gama]: the sum is [gama] only up to rounding. *)
Lemma derived_rates_round_in_binary64 :
  Binary64.valid 1 0.3 0.1 0.2 1 0 0 1 0 = true /\
  exists self : Doenca,
    init 1 0.3 0.1 0.2 1 0 0 1 0 = Ok self /\
    self_gama self = 0.1 /\
    self_tDeath self + self_tCuradas self = 0.10000000000000002 /\
    (self_tDeath self + self_tCuradas self =? self_gama self) = false /\
    next_up (self_gama self) = self_tDeath self + self_tCuradas self.
Proof.
  split; [vm_compute; reflexivity|].
  eexists. split; [vm_compute; reflexivity|].
  repeat split; vm_compute; reflexivity.
Qed.



(** C5, at the call the source itself makes.  [corona] is built with
    [leitos=5623] and runs 36000 passes; afterwards [leitos] holds 5623 at
    index 0 and the literal 744 of line 115 at the 36000 indices that
    follow, so the series is not the constant 5623. *)
Theorem corona_leitos_series :
  exists self m : Doenca,
    Binary64.corona = Ok self /\
    run self = Ok m /\
    self_leitos self = [5623] /\
    self_leitos m = 5623 :: repeat 744 (Z.to_nat 36000) /\
    Z.of_nat (length (self_leitos m)) = 36001%Z /\
    nth_error (self_leitos m) 1 = Some 744 /\
    (744 =? 5623) = false.
Proof.
  pose (self := novo 900000 Binary64.beta Binary64.gama Binary64.mortalidade
                     5100 0 0 360 5623).
  pose (ps := orbit self lit_0_01 (Z.to_nat 36000) (inicio 900000 5100 0 0)).
  assert (Hz : run_steps self = Ok 36000%Z) by (vm_compute; reflexivity).
  assert (Hl : self_leitos (run_absoluto (extend self ps))
               = 5623 :: repeat 744 (Z.to_nat 36000)).
  { destruct (absoluto_lists (extend self ps)) as (_ & _ & _ & _ & _ & ->).
    unfold ps, self. rewrite leitos_fracoes. reflexivity. }
  exists self, (run_absoluto (extend self ps)).
  split; [vm_compute; reflexivity|].
  split.
  { unfold run, self. rewrite (run_iterando_novo _ _ _ _ _ _ _ _ _ _ Hz).
    reflexivity. }
  split; [reflexivity|].
  split; [exact Hl|].
  rewrite Hl. repeat split; vm_compute; reflexivity.
Qed.

(** *** Instances of the statements with hypotheses

    The exact ones are taken at the parameters of [corona] read as
    rationals (with [beta] or [gama] set to 0 where the statement asks for
    it); the generic one at [corona] itself, in binary64. *)


Local Ltac nonzero := intros E; discriminate E.


Lemma run_body_reads_previous_snapshot_corona :
  exists self : Doenca,
    init 900000 Binary64.beta Binary64.gama Binary64.mortalidade 5100 0 0 360
         5623 = Ok self /\
    run_steps self = Ok 36000%Z /\
    (7 < Z.to_nat 36000)%nat /\
    exists m : Doenca,
      run_iterando self = Ok m /\
      exists I_prev C_prev D_prev S_prev time_prev : float,
        nth_error (self_I m) 7 = Some I_prev /\
        nth_error (self_C m) 7 = Some C_prev /\
        nth_error (self_D m) 7 = Some D_prev /\
        nth_error (self_S m) 7 = Some S_prev /\
        nth_error (self_time m) 7 = Some time_prev /\
        nth_error (self_I m) 8
        = Some (I_prev + (Binary64.beta * I_prev * S_prev
                          - Binary64.gama * I_prev) * 0.01) /\
        nth_error (self_C m) 8
        = Some (C_prev + (Binary64.gama * (1 - Binary64.mortalidade) * I_prev)
                         * 0.01) /\
        nth_error (self_D m) 8
        = Some (D_prev + (Binary64.mortalidade * Binary64.gama * I_prev)
                         * 0.01) /\
        nth_error (self_S m) 8
        = Some (S_prev - (Binary64.beta * I_prev * S_prev) * 0.01) /\
        nth_error (self_time m) 8 = Some (time_prev + 0.01).
Proof.
  pose (self := novo 900000 Binary64.beta Binary64.gama Binary64.mortalidade
                     5100 0 0 360 5623).
  assert (Hi : init 900000 Binary64.beta Binary64.gama Binary64.mortalidade
                    5100 0 0 360 5623 = Ok self) by (vm_compute; reflexivity).
  assert (Hz : run_steps self = Ok 36000%Z) by (vm_compute; reflexivity).
  assert (Hk : (7 < Z.to_nat 36000)%nat) by lia.
  exists self. split; [exact Hi|]. split; [exact Hz|]. split; [exact Hk|].
  exact (run_body_reads_previous_snapshot
           900000 Binary64.beta Binary64.gama Binary64.mortalidade
           5100 0 0 360 5623 self 36000%Z 7%nat Hi Hz Hk).
Defined.


Lemma derived_rates_sum_to_gama_corona :
  ~ (900000 == 0)%Q /\
  exists self : Doenca,
    init 900000%Q (3 # 10) (1 # 4) (1 # 25) 5100%Q 0%Q 0%Q 360%Q 5623%Q
    = Ok self /\
    self_tDeath self = ((1 # 25) * (1 # 4))%Q /\
    self_tCuradas self = ((1 # 4) * (1 - (1 # 25)))%Q /\
    self_gama self = (1 # 4) /\
    (self_tDeath self + self_tCuradas self == self_gama self)%Q.
Proof.
  assert (Hp : ~ (900000 == 0)%Q) by nonzero.
  split; [exact Hp|].
  exact (derived_rates_sum_to_gama 900000%Q (3 # 10) (1 # 4) (1 # 25)
           5100%Q 0%Q 0%Q 360%Q 5623%Q Hp).
Defined.


Lemma gama_zero_freezes_C_and_D_corona :
  ~ (900000 == 0)%Q /\
  (0 == 0)%Q /\
  (exists m : Doenca,
     simulacao_fracoes 900000%Q (3 # 10) 0%Q (1 # 25) 5100%Q 0%Q 0%Q 360%Q
                       5623%Q = Ok m /\
     Exact.constant (self_C m) /\ Exact.constant (self_D m)) /\
  (exists m : Doenca,
     simulacao 900000%Q (3 # 10) 0%Q (1 # 25) 5100%Q 0%Q 0%Q 360%Q 5623%Q
     = Ok m /\
     Exact.constant (self_C m) /\ Exact.constant (self_D m)).
Proof.
  assert (Hp : ~ (900000 == 0)%Q) by nonzero.
  assert (Hg : (0 == 0)%Q) by reflexivity.
  split; [exact Hp|]. split; [exact Hg|].
  exact (gama_zero_freezes_C_and_D 900000%Q (3 # 10) 0%Q (1 # 25)
           5100%Q 0%Q 0%Q 360%Q 5623%Q Hp Hg).
Defined.


Lemma euler_step_conserves_sum_corona :
  ~ (900000 == 0)%Q /\
  exists m : Doenca,
    simulacao_fracoes 900000%Q (3 # 10) (1 # 4) (1 # 25) 5100%Q 0%Q 0%Q
                      360%Q 5623%Q = Ok m /\
    forall k : nat,
      (Datatypes.S k < length (self_S m))%nat ->
      (Exact.soma_at m (Datatypes.S k) == Exact.soma_at m k)%Q.
Proof.
  assert (Hp : ~ (900000 == 0)%Q) by nonzero.
  split; [exact Hp|].
  exact (euler_step_conserves_sum 900000%Q (3 # 10) (1 # 4) (1 # 25)
           5100%Q 0%Q 0%Q 360%Q 5623%Q Hp).
Defined.

(** *** The run of [corona] in binary64

    The end-to-end scenario, evaluated pass by pass: 36001 entries; a time
    axis that starts at 0, grows strictly and ends within 1e-6 of 360; a
    fractional sum within 1e-9 of 1 at every index, though not equal to 1 at
    every index; [S] never increasing and ending below its first entry; [I]
    rising above its first entry. *)
Theorem corona_trajectory :
  exists m : Doenca,
    simulacao_fracoes 900000 Binary64.beta Binary64.gama Binary64.mortalidade
                      5100 0 0 360 5623 = Ok m /\
    Z.of_nat (length (self_time m)) = 36001%Z /\
    Z.of_nat (length (self_S m)) = 36001%Z /\
    Z.of_nat (length (self_I m)) = 36001%Z /\
    Z.of_nat (length (self_C m)) = 36001%Z /\
    Z.of_nat (length (self_D m)) = 36001%Z /\
    nth 0 (self_time m) nan = 0 /\
    Binary64.increasing (self_time m) = true /\
    (abs (last (self_time m) nan - 360) <? 1e-6) = true /\
    forallb (fun x => abs (x - 1) <? 1e-9)
            (Binary64.somas (self_S m) (self_I m) (self_C m) (self_D m))
    = true /\
    forallb (fun x => x =? 1)
            (Binary64.somas (self_S m) (self_I m) (self_C m) (self_D m))
    = false /\
    Binary64.nonincreasing (self_S m) = true /\
    (last (self_S m) nan <? nth 0 (self_S m) nan) = true /\
    existsb (fun x => nth 0 (self_I m) nan <? x) (self_I m) = true.
Proof.
  assert (Hz : run_steps (novo 900000 Binary64.beta Binary64.gama
                               Binary64.mortalidade 5100 0 0 360 5623)
               = Ok 36000%Z) by (vm_compute; reflexivity).
  assert (Hp : is_zero 900000 = false) by (vm_compute; reflexivity).
  eexists.
  split; [exact (simulacao_fracoes_novo _ _ _ _ _ _ _ _ _ 36000%Z Hp Hz)|].
  repeat split; vm_compute; reflexivity.
Qed.

(** The number of passes is [int] of the quotient as the number type
    computes it.  In binary64 [0.29 / 0.01] is 28.999999999999996 and the
    loop makes 28 passes; in exact arithmetic the quotient is 29. *)
Lemma passes_follow_the_quotient :
  0.29 / 0.01 = 28.999999999999996 /\
  run_steps (novo 1 0.3 0.25 0.04 1 0 0 0.29 0) = Ok 28%Z /\
  run_steps (novo 1%Q (3 # 10) (1 # 4) (1 # 25) 1%Q 0%Q 0%Q (29 # 100) 0%Q)
  = Ok 29%Z.
Proof. repeat split; vm_compute; reflexivity. Qed.

(** C8 fails in binary64 on overflow.  [gama = 0] and [beta = 1000] form a
    valid parameter set; the scheme is unstable for this [beta], [I] and [S]
    square at every pass and reach the infinities at index 9, and from
    index 10 on the products [0 * I] are NaN, so [C] and [D] are NaN
    there. *)
Lemma gama_zero_overflow :
  Binary64.valid 2 1000 0 0.04 1 0 0 0.15 0 = true /\
  exists m : Doenca,
    simulacao_fracoes 2 1000 0 0.04 1 0 0 0.15 0 = Ok m /\
    firstn 4 (self_I m) = [0.5; 3; -57; -33117] /\
    nth 9 (self_I m) 0 = neg_infinity /\
    self_C m = [0; 0; 0; 0; 0; 0; 0; 0; 0; 0; nan; nan; nan; nan; nan; nan] /\
    self_D m = [0; 0; 0; 0; 0; 0; 0; 0; 0; 0; nan; nan; nan; nan; nan; nan] /\
    (nth 10 (self_C m) 0 =? nth 0 (self_C m) 0) = false /\
    (nth 10 (self_D m) 0 =? nth 0 (self_D m) 0) = false.
Proof.
  split; [vm_compute; reflexivity|].
  eexists. split; [vm_compute; reflexivity|].
  repeat split; vm_compute; reflexivity.
Qed.

Lemma gama_zero_freezes_C_and_D_while_finite_corona :
  (0 =? 0) = true /\
  is_finite (1 - Binary64.mortalidade) = true /\
  (900000 =? 0) = false /\
  Binary64.float_to_int (360 / 0.01) = Ok 36000%Z /\
  exists m : Doenca,
    simulacao_fracoes 900000 Binary64.beta 0 Binary64.mortalidade 5100 0 0
                      360 5623 = Ok m /\
    length (self_C m) = Datatypes.S (Z.to_nat 36000) /\
    length (self_D m) = Datatypes.S (Z.to_nat 36000) /\
    forall k : nat,
      (k < length (self_C m))%nat ->
      (forall j : nat, (j < k)%nat ->
                       is_finite (nth j (self_I m) 0) = true) ->
      (is_nan (nth 0 (self_C m) 0) = false ->
       (nth k (self_C m) 0 =? nth 0 (self_C m) 0) = true) /\
      (is_nan (nth 0 (self_D m) 0) = false ->
       (nth k (self_D m) 0 =? nth 0 (self_D m) 0) = true).
Proof.
  assert (Hg : (0 =? 0) = true) by (vm_compute; reflexivity).
  assert (Ht : is_finite (1 - Binary64.mortalidade) = true)
    by (vm_compute; reflexivity).
  assert (Hp : (900000 =? 0) = false) by (vm_compute; reflexivity).
  assert (Hz : Binary64.float_to_int (360 / 0.01) = Ok 36000%Z)
    by (vm_compute; reflexivity).
  split; [exact Hg|]. split; [exact Ht|].
  split; [exact Hp|]. split; [exact Hz|].
  exact (gama_zero_freezes_C_and_D_while_finite
           900000 Binary64.beta 0 Binary64.mortalidade 5100 0 0 360 5623
           Hg Ht 36000%Z Hp Hz).
Defined.

(** The same run evaluated: with [gama = 0] every entry of [I] is finite
    and [C] and [D] are constant over the 36001 entries. *)
Lemma corona_without_recovery :
  exists m : Doenca,
    simulacao_fracoes 900000 Binary64.beta 0 Binary64.mortalidade 5100 0 0
                      360 5623 = Ok m /\
    forallb is_finite (self_I m) = true /\
    Binary64.constant (self_C m) = true /\
    Binary64.constant (self_D m) = true.
Proof.
  assert (Hz : run_steps (novo 900000 Binary64.beta 0 Binary64.mortalidade
                               5100 0 0 360 5623)
               = Ok 36000%Z) by (vm_compute; reflexivity).
  assert (Hp : is_zero 900000 = false) by (vm_compute; reflexivity).
  eexists.
  split; [exact (simulacao_fracoes_novo _ _ _ _ _ _ _ _ _ 36000%Z Hp Hz)|].
  repeat split; vm_compute; reflexivity.
Qed.

End Executions.


(** * Further properties of [run]

    What [run] does on an instance that is not fresh, and when it raises. *)

Section Run_on_any_instance.

Context {T : Type} `{PyNumber T}.

Local Open Scope py_scope.

Lemma last_item_nonempty (l : list T) :
  l <> [] -> exists x : T, last_item l = Ok x.
Proof.
  induction l as [|a l IH]; intros Hl; [now elim Hl|].
  destruct l as [|b l]; [now exists a|].
  apply IH. discriminate.
Qed.

Lemma last_item_raises (l : list T) (e : exn) :
  last_item l = Raise e -> l = [] /\ e = IndexError.
Proof.
  destruct l as [|a l]; simpl.
  - intros E. injection E as <-. now split.
  - intros E. destruct (last_item_nonempty (a :: l)) as [x Hx];
      [discriminate|]. simpl in Hx. rewrite Hx in E. discriminate.
Qed.

Lemma ultimo_nonempty (self : @Doenca T) :
  self_I self <> [] -> self_S self <> [] -> self_C self <> [] ->
  self_D self <> [] -> self_time self <> [] ->
  exists p, ultimo self = Ok p.
Proof.
  intros HI HS HC HD Ht. unfold ultimo.
  destruct (last_item_nonempty _ HI) as [i ->].
  destruct (last_item_nonempty _ HS) as [s ->].
  destruct (last_item_nonempty _ HC) as [c ->].
  destruct (last_item_nonempty _ HD) as [d ->].
  destruct (last_item_nonempty _ Ht) as [t ->].
  simpl. eexists. reflexivity.
Qed.

(** [run] on an instance whose last snapshot is [p]. *)
Lemma run_extend (self : Doenca) (p : ponto) (z : Z) :
  ultimo self = Ok p ->
  run_steps self = Ok z ->
  run self
  = Ok (run_absoluto (extend self (orbit self lit_0_01 (Z.to_nat z) p))).
Proof.
  intros Hp Hz. unfold run, run_iterando. rewrite Hz. simpl.
  now rewrite (for_range_orbit lit_0_01 (Z.to_nat z) self p Hp).
Qed.

Lemma map_const_repeat (A B : Type) (b : B) (l : list A) :
  map (fun _ => b) l = repeat b (length l).
Proof. induction l as [|a l IH]; simpl; [|rewrite IH]; reflexivity. Qed.

(** X1.  On any instance whose five lists are not empty, [run] returns; it
    leaves the six scalar attributes as they were, appends exactly
    [int(simulationTime / dt)] entries to each of the six lists (none when
    that number is negative), keeps [time] and [leitos] otherwise as they
    were, and multiplies by [populacao] every entry of [I], [C], [D], [S],
    the ones that were there before the call included. *)
Theorem run_scales_and_appends (self : Doenca) (z : Z) :
  self_I self <> [] -> self_S self <> [] -> self_C self <> [] ->
  self_D self <> [] -> self_time self <> [] ->
  run_steps self = Ok z ->
  exists (m : Doenca) (nI nC nD nS ntime : list T),
    run self = Ok m /\
    length nI = Z.to_nat z /\ length nC = Z.to_nat z /\
    length nD = Z.to_nat z /\ length nS = Z.to_nat z /\
    length ntime = Z.to_nat z /\
    self_I m = map (fun i => i * self_populacao self) (self_I self ++ nI) /\
    self_C m = map (fun c => c * self_populacao self) (self_C self ++ nC) /\
    self_D m = map (fun d => d * self_populacao self) (self_D self ++ nD) /\
    self_S m = map (fun s => s * self_populacao self) (self_S self ++ nS) /\
    self_time m = self_time self ++ ntime /\
    self_leitos m = self_leitos self ++ repeat (of_int 744) (Z.to_nat z) /\
    self_simulationTime m = self_simulationTime self /\
    self_populacao m = self_populacao self /\
    self_beta m = self_beta self /\
    self_gama m = self_gama self /\
    self_tDeath m = self_tDeath self /\
    self_tCuradas m = self_tCuradas self.
Proof.
  intros HI HS HC HD Ht Hz.
  destruct (ultimo_nonempty self HI HS HC HD Ht) as [p Hp].
  set (ps := orbit self lit_0_01 (Z.to_nat z) p).
  assert (Hlen : length ps = Z.to_nat z) by apply length_orbit.
  exists (run_absoluto (extend self ps)),
    (map pI ps), (map pC ps), (map pD ps), (map pS ps), (map ptime ps).
  split; [exact (run_extend self p z Hp Hz)|].
  rewrite !length_map.
  do 5 (split; [exact Hlen|]).
  do 5 (split; [reflexivity|]).
  split; [|repeat split].
  change (self_leitos (run_absoluto (extend self ps)))
    with (self_leitos self ++ map (fun _ => of_int 744) ps).
  now rewrite map_const_repeat, Hlen.
Qed.

(** X2.  When [int(simulationTime / dt)] is at least 1, [run] raises
    [IndexError] exactly when one of the lists [I], [S], [C], [D], [time]
    is empty ([leitos], which is only appended to, may be empty), and it
    raises nothing else. *)
Theorem run_raises_IndexError_iff (self : Doenca) (z : Z) :
  run_steps self = Ok z ->
  (0 < z)%Z ->
  (run self = Raise IndexError <->
   self_I self = [] \/ self_S self = [] \/ self_C self = [] \/
   self_D self = [] \/ self_time self = []) /\
  (forall e : exn, run self = Raise e -> e = IndexError).
Proof.
  intros Hz Hpos.
  assert (Hnone : self_I self <> [] -> self_S self <> [] ->
                  self_C self <> [] -> self_D self <> [] ->
                  self_time self <> [] ->
                  forall e : exn, run self <> Raise e).
  { intros HI HS HC HD Ht e E.
    destruct (ultimo_nonempty self HI HS HC HD Ht) as [p Hp].
    rewrite (run_extend self p z Hp Hz) in E. discriminate. }
  assert (Hsome : self_I self = [] \/ self_S self = [] \/ self_C self = [] \/
                  self_D self = [] \/ self_time self = [] ->
                  run self = Raise IndexError).
  { intros Hempty. unfold run, run_iterando. rewrite Hz. simpl.
    destruct (Z.to_nat z) as [|n] eqn:En; [lia|]. simpl.
    unfold run_body.
    destruct (last_item (self_I self)) as [i|e] eqn:EI;
      [|apply last_item_raises in EI as [_ ->]; reflexivity].
    destruct (last_item (self_S self)) as [s|e] eqn:ES;
      [|apply last_item_raises in ES as [_ ->]; reflexivity].
    destruct (last_item (self_C self)) as [c|e] eqn:EC;
      [|apply last_item_raises in EC as [_ ->]; reflexivity].
    destruct (last_item (self_D self)) as [d|e] eqn:ED;
      [|apply last_item_raises in ED as [_ ->]; reflexivity].
    destruct (last_item (self_time self)) as [t|e] eqn:Et;
      [|apply last_item_raises in Et as [_ ->]; reflexivity].
    exfalso.
    destruct Hempty as [E|[E|[E|[E|E]]]]; rewrite E in *; discriminate. }
  assert (Hdec : forall l : list T, l = [] \/ l <> [])
    by (intros [|a l]; [now left | right; discriminate]).
  split; [split; [|exact Hsome]|].
  - intros E.
    destruct (Hdec (self_I self)) as [?|HI]; [tauto|].
    destruct (Hdec (self_S self)) as [?|HS]; [tauto|].
    destruct (Hdec (self_C self)) as [?|HC]; [tauto|].
    destruct (Hdec (self_D self)) as [?|HD]; [tauto|].
    destruct (Hdec (self_time self)) as [?|Ht]; [tauto|].
    now elim (Hnone HI HS HC HD Ht IndexError).
  - intros e E.
    destruct (Hdec (self_I self)) as [HI|HI];
      [rewrite Hsome in E by tauto; now injection E|].
    destruct (Hdec (self_S self)) as [HS|HS];
      [rewrite Hsome in E by tauto; now injection E|].
    destruct (Hdec (self_C self)) as [HC|HC];
      [rewrite Hsome in E by tauto; now injection E|].
    destruct (Hdec (self_D self)) as [HD|HD];
      [rewrite Hsome in E by tauto; now injection E|].
    destruct (Hdec (self_time self)) as [Ht|Ht];
      [rewrite Hsome in E by tauto; now injection E|].
    now elim (Hnone HI HS HC HD Ht e).
Qed.

End Run_on_any_instance.


Section Second_run.

Context {T : Type} `{PyNumber T}.

Variables populacao beta gama tDeath infectado curado mortos
          simulationTime leitos : T.

Local Open Scope py_scope.

Lemma extend_lists (self : @Doenca T) (ps : list ponto) :
  self_I (extend self ps) = self_I self ++ map pI ps /\
  self_C (extend self ps) = self_C self ++ map pC ps /\
  self_D (extend self ps) = self_D self ++ map pD ps /\
  self_S (extend self ps) = self_S self ++ map pS ps /\
  self_time (extend self ps) = self_time self ++ map ptime ps /\
  self_leitos (extend self ps)
  = self_leitos self ++ map (fun _ => of_int 744) ps.
Proof. repeat split. Qed.

Lemma nth_error_scaled_twice (s1 s2 : T -> T) (l l' : list T) (k : nat)
      (x : T) :
  nth_error l k = Some x ->
  nth_error (map s2 (map s1 l ++ l')) k = Some (s2 (s1 x)).
Proof.
  intros Hx.
  assert (Hk : (k < length l)%nat)
    by (apply nth_error_Some; rewrite Hx; discriminate).
  rewrite nth_error_map, nth_error_app1 by (now rewrite length_map).
  now rewrite nth_error_map, Hx.
Qed.

(** X3.  [run] has no guard against a second call.  Called again on the
    instance it has just completed, it returns, appends as many entries
    again, and multiplies by [populacao] a second time every entry of [I],
    [C], [D], [S] that the first call had produced; [time] keeps its first
    entries and [leitos] receives as many [744] again. *)
Theorem second_run_rescales (self : Doenca) (z : Z) :
  init populacao beta gama tDeath infectado curado mortos simulationTime leitos
  = Ok self ->
  run_steps self = Ok z ->
  exists mf m1 m2 : Doenca,
    run_iterando self = Ok mf /\
    run self = Ok m1 /\
    run m1 = Ok m2 /\
    length (self_time m1) = Datatypes.S (Z.to_nat z) /\
    length (self_time m2) = Datatypes.S (Z.to_nat z + Z.to_nat z) /\
    length (self_I m2) = Datatypes.S (Z.to_nat z + Z.to_nat z) /\
    length (self_C m2) = Datatypes.S (Z.to_nat z + Z.to_nat z) /\
    length (self_D m2) = Datatypes.S (Z.to_nat z + Z.to_nat z) /\
    length (self_S m2) = Datatypes.S (Z.to_nat z + Z.to_nat z) /\
    (forall (k : nat) (x : T),
        nth_error (self_I mf) k = Some x ->
        nth_error (self_I m2) k = Some (x * populacao * populacao)) /\
    (forall (k : nat) (x : T),
        nth_error (self_C mf) k = Some x ->
        nth_error (self_C m2) k = Some (x * populacao * populacao)) /\
    (forall (k : nat) (x : T),
        nth_error (self_D mf) k = Some x ->
        nth_error (self_D m2) k = Some (x * populacao * populacao)) /\
    (forall (k : nat) (x : T),
        nth_error (self_S mf) k = Some x ->
        nth_error (self_S m2) k = Some (x * populacao * populacao)) /\
    (forall (k : nat) (x : T),
        nth_error (self_time mf) k = Some x ->
        nth_error (self_time m2) k = Some x) /\
    self_leitos m2
    = leitos :: repeat (of_int 744) (Z.to_nat z + Z.to_nat z).
Proof.
  intros Hinit Hz.
  destruct (is_zero populacao) eqn:Hp.
  { rewrite (init_zero _ _ _ _ _ _ _ _ _ Hp) in Hinit. discriminate. }
  rewrite (init_novo _ _ _ _ _ _ _ _ _ Hp) in Hinit. injection Hinit as <-.
  set (self := novo populacao beta gama tDeath infectado curado mortos
                    simulationTime leitos) in *.
  set (p0 := inicio populacao infectado curado mortos).
  set (n := Z.to_nat z).
  set (ps := orbit self lit_0_01 n p0).
  set (mf := extend self ps).
  set (m1 := run_absoluto mf).
  assert (Lps : length ps = n) by apply length_orbit.
  destruct (extend_lists self ps) as (FI & FC & FD & FS & Ft & Fl).
  fold mf in FI, FC, FD, FS, Ft, Fl.
  destruct (absoluto_lists mf) as (AI & AC & AD & AS & At & Al).
  fold m1 in AI, AC, AD, AS, At, Al.
  assert (H1 : exists p1, ultimo m1 = Ok p1).
  { apply ultimo_nonempty;
      rewrite ?AI, ?AC, ?AD, ?AS, ?At, ?FI, ?FC, ?FD, ?FS, ?Ft;
      discriminate. }
  destruct H1 as [p1 Hp1].
  set (qs := orbit m1 lit_0_01 n p1).
  assert (Lqs : length qs = n) by apply length_orbit.
  destruct (extend_lists m1 qs) as (GI & GC & GD & GS & Gt & Gl).
  destruct (absoluto_lists (extend m1 qs)) as (BI & BC & BD & BS & Bt & Bl).
  exists mf, m1, (run_absoluto (extend m1 qs)).
  split; [exact (run_iterando_novo _ _ _ _ _ _ _ _ _ z Hz)|].
  split; [exact (run_extend self p0 z (ultimo_novo _ _ _ _ _ _ _ _ _) Hz)|].
  split; [exact (run_extend m1 p1 z Hp1 Hz)|].
  rewrite BI, BC, BD, BS, Bt, Bl, GI, GC, GD, GS, Gt, Gl.
  rewrite AI, AC, AD, AS, At, Al, FI, FC, FD, FS, Ft, Fl.
  repeat rewrite ?length_app, ?length_map, ?Lps, ?Lqs.
  do 6 (split; [unfold self; simpl; lia|]).
  do 4 (split; [intros k x Hx;
                exact (nth_error_scaled_twice _ _ _ _ k x Hx)|]).
  split.
  - intros k x Hx.
    assert (Hk : (k < length (self_time self ++ map ptime ps))%nat)
      by (apply nth_error_Some; rewrite Hx; discriminate).
    now rewrite nth_error_app1.
  - rewrite !map_const_repeat, Lps, Lqs, <- app_assoc, <- repeat_app.
    reflexivity.
Qed.

End Second_run.


(** ** Binary64: when [run] raises *)

Section Binary64_run.

Local Open Scope float_scope.

Variables populacao beta gama tDeath infectado curado mortos
          simulationTime leitos : float.

(** [int] of a float, by the kind of float. *)
Lemma float_to_int_cases (x : float) :
  (is_nan x = true /\ Binary64.float_to_int x = Raise ValueError) \/
  (is_nan x = false /\ is_infinity x = true /\
   Binary64.float_to_int x = Raise OverflowError) \/
  (is_nan x = false /\ is_infinity x = false /\
   exists z : Z, Binary64.float_to_int x = Ok z).
Proof.
  unfold is_nan, is_infinity, Binary64.float_to_int.
  rewrite !FloatAxioms.eqb_spec, FloatAxioms.abs_spec, Prim2SF_infinity.
  destruct (Prim2SF x) as [s|s| |s m e]; simpl.
  - right. right. repeat split. now exists 0%Z.
  - right. left. destruct s; repeat split.
  - left. now split.
  - right. right. unfold SFeqb. simpl.
    rewrite Z.compare_refl, Pos.compare_cont_refl.
    destruct s; repeat split; eexists; reflexivity.
Qed.

(** X4.  In binary64, a construction followed by [run] can fail in two
    ways only once [populacao] is not zero: with [ValueError] when
    [simulationTime / dt] is NaN and with [OverflowError] when it is
    infinite, both raised by [int] before the first pass.  For every other
    [simulationTime], whatever the other arguments are, [run] returns. *)
Theorem run_fails_only_in_int :
  (populacao =? 0) = false ->
  if is_nan (simulationTime / 0.01)
  then simulacao populacao beta gama tDeath infectado curado mortos
                 simulationTime leitos = Raise ValueError
  else if is_infinity (simulationTime / 0.01)
       then simulacao populacao beta gama tDeath infectado curado mortos
                      simulationTime leitos = Raise OverflowError
       else exists m : Doenca,
           simulacao populacao beta gama tDeath infectado curado mortos
                     simulationTime leitos = Ok m.
Proof.
  intros Hp.
  assert (Hpop : is_zero populacao = false) by exact Hp.
  assert (Hinit := init_novo populacao beta gama tDeath infectado curado mortos
                             simulationTime leitos Hpop).
  assert (Hsteps : run_steps (novo populacao beta gama tDeath infectado curado
                                   mortos simulationTime leitos)
                   = Binary64.float_to_int (simulationTime / 0.01))
    by reflexivity.
  destruct (float_to_int_cases (simulationTime / 0.01))
    as [[-> E]|[(-> & -> & E)|(-> & -> & z & E)]].
  - unfold simulacao. rewrite Hinit. simpl. unfold run, run_iterando.
    now rewrite Hsteps, E.
  - unfold simulacao. rewrite Hinit. simpl. unfold run, run_iterando.
    now rewrite Hsteps, E.
  - rewrite E in Hsteps. eexists.
    exact (simulacao_novo _ _ _ _ _ _ _ _ _ z Hpop Hsteps).
Qed.

End Binary64_run.


(** * Further properties of the trajectory, in exact arithmetic *)

Section Exact_run.

Import Exact.

Local Open Scope Q_scope.

Variables populacao beta gama tDeath infectado curado mortos
          simulationTime leitos : Q.

Let self0 : Doenca :=
  novo populacao beta gama tDeath infectado curado mortos simulationTime leitos.

Let p0 : ponto := inicio populacao infectado curado mortos.

Let dt : Q := lit_0_01.

Let passos : nat :=
  Z.to_nat (Z.quot (Qnum (simulationTime / (1 # 100)))
                   (Zpos (Qden (simulationTime / (1 # 100))))).




(** *** No pass at all *)





(** *** Cured and dead grow in the ratio of [tDeath] *)



(** *** The time axis in closed form *)


(** *** Nobody infected *)



(** *** No transmission: geometric decay *)



(** *** Valid parameter sets *)

Hypothesis Hvalid :
  valid populacao beta gama tDeath infectado curado mortos simulationTime
        leitos.


(** *** Within the step bounds *)

Hypothesis Hbeta : beta <= 100.
Hypothesis Hgama : gama <= 100.




(** *** One peak *)





End Exact_run.


(** * The further properties on concrete runs *)

Section Further_executions.

Import Exact.


Local Ltac nonzero := intros E; discriminate E.


(** The source's scenario in binary64. *)
Lemma run_scales_and_appends_corona :
  exists self : Doenca,
    init 900000%float Binary64.beta Binary64.gama Binary64.mortalidade
         5100%float 0%float 0%float 360%float 5623%float = Ok self /\
    self_I self <> [] /\
    self_S self <> [] /\
    self_C self <> [] /\
    self_D self <> [] /\
    self_time self <> [] /\
    run_steps self = Ok 36000%Z /\
    exists (m : Doenca) (nI nC nD nS ntime : list float),
      run self = Ok m /\
      length nI = Z.to_nat 36000 /\ length nC = Z.to_nat 36000 /\
      length nD = Z.to_nat 36000 /\ length nS = Z.to_nat 36000 /\
      length ntime = Z.to_nat 36000 /\
      self_I m = map (fun i => (i * self_populacao self)%py)
                     (self_I self ++ nI) /\
      self_C m = map (fun c => (c * self_populacao self)%py)
                     (self_C self ++ nC) /\
      self_D m = map (fun d => (d * self_populacao self)%py)
                     (self_D self ++ nD) /\
      self_S m = map (fun s => (s * self_populacao self)%py)
                     (self_S self ++ nS) /\
      self_time m = self_time self ++ ntime /\
      self_leitos m
      = self_leitos self ++ repeat (of_int 744) (Z.to_nat 36000) /\
      self_simulationTime m = self_simulationTime self /\
      self_populacao m = self_populacao self /\
      self_beta m = self_beta self /\
      self_gama m = self_gama self /\
      self_tDeath m = self_tDeath self /\
      self_tCuradas m = self_tCuradas self.
Proof.
  pose (self := novo 900000%float Binary64.beta Binary64.gama
                     Binary64.mortalidade 5100%float 0%float 0%float
                     360%float 5623%float).
  assert (Hi : init 900000%float Binary64.beta Binary64.gama
                    Binary64.mortalidade 5100%float 0%float 0%float 360%float
                    5623%float = Ok self) by (vm_compute; reflexivity).
  assert (Hz : run_steps self = Ok 36000%Z) by (vm_compute; reflexivity).
  exists self. split; [exact Hi|].
  assert (HI : self_I self <> []) by discriminate.
  assert (HS : self_S self <> []) by discriminate.
  assert (HC : self_C self <> []) by discriminate.
  assert (HD : self_D self <> []) by discriminate.
  assert (Ht : self_time self <> []) by discriminate.
  split; [exact HI|]. split; [exact HS|]. split; [exact HC|].
  split; [exact HD|]. split; [exact Ht|]. split; [exact Hz|].
  exact (run_scales_and_appends self 36000 HI HS HC HD Ht Hz).
Defined.

(** The source's scenario in binary64: its five lists are not empty, so
    its [run] does not raise. *)
Lemma run_raises_IndexError_iff_corona :
  exists self : Doenca,
    init 900000%float Binary64.beta Binary64.gama Binary64.mortalidade
         5100%float 0%float 0%float 360%float 5623%float = Ok self /\
    run_steps self = Ok 36000%Z /\
    (0 < 36000)%Z /\
    (run self = Raise IndexError <->
     self_I self = [] \/ self_S self = [] \/ self_C self = [] \/
     self_D self = [] \/ self_time self = []) /\
    (forall e : exn, run self = Raise e -> e = IndexError).
Proof.
  pose (self := novo 900000%float Binary64.beta Binary64.gama
                     Binary64.mortalidade 5100%float 0%float 0%float
                     360%float 5623%float).
  assert (Hi : init 900000%float Binary64.beta Binary64.gama
                    Binary64.mortalidade 5100%float 0%float 0%float 360%float
                    5623%float = Ok self) by (vm_compute; reflexivity).
  assert (Hz : run_steps self = Ok 36000%Z) by (vm_compute; reflexivity).
  exists self. split; [exact Hi|].
  assert (Hpos : (0 < 36000)%Z) by lia.
  split; [exact Hz|]. split; [exact Hpos|].
  exact (run_raises_IndexError_iff self 36000 Hz Hpos).
Defined.

(** The source's scenario in binary64, with [run] called twice. *)
Lemma second_run_rescales_corona :
  exists self : Doenca,
    init 900000%float Binary64.beta Binary64.gama Binary64.mortalidade
         5100%float 0%float 0%float 360%float 5623%float = Ok self /\
    run_steps self = Ok 36000%Z /\
    exists mf m1 m2 : Doenca,
      run_iterando self = Ok mf /\
      run self = Ok m1 /\
      run m1 = Ok m2 /\
      length (self_time m1) = Datatypes.S (Z.to_nat 36000) /\
      length (self_time m2) = Datatypes.S (Z.to_nat 36000 + Z.to_nat 36000) /\
      length (self_I m2) = Datatypes.S (Z.to_nat 36000 + Z.to_nat 36000) /\
      length (self_C m2) = Datatypes.S (Z.to_nat 36000 + Z.to_nat 36000) /\
      length (self_D m2) = Datatypes.S (Z.to_nat 36000 + Z.to_nat 36000) /\
      length (self_S m2) = Datatypes.S (Z.to_nat 36000 + Z.to_nat 36000) /\
      (forall (k : nat) (x : float),
          nth_error (self_I mf) k = Some x ->
          nth_error (self_I m2) k = Some (x * 900000 * 900000)%float) /\
      (forall (k : nat) (x : float),
          nth_error (self_C mf) k = Some x ->
          nth_error (self_C m2) k = Some (x * 900000 * 900000)%float) /\
      (forall (k : nat) (x : float),
          nth_error (self_D mf) k = Some x ->
          nth_error (self_D m2) k = Some (x * 900000 * 900000)%float) /\
      (forall (k : nat) (x : float),
          nth_error (self_S mf) k = Some x ->
          nth_error (self_S m2) k = Some (x * 900000 * 900000)%float) /\
      (forall (k : nat) (x : float),
          nth_error (self_time mf) k = Some x ->
          nth_error (self_time m2) k = Some x) /\
      self_leitos m2
      = 5623%float :: repeat (of_int 744) (Z.to_nat 36000 + Z.to_nat 36000).
Proof.
  pose (self := novo 900000%float Binary64.beta Binary64.gama
                     Binary64.mortalidade 5100%float 0%float 0%float
                     360%float 5623%float).
  assert (Hi : init 900000%float Binary64.beta Binary64.gama
                    Binary64.mortalidade 5100%float 0%float 0%float 360%float
                    5623%float = Ok self) by (vm_compute; reflexivity).
  assert (Hz : run_steps self = Ok 36000%Z) by (vm_compute; reflexivity).
  exists self. split; [exact Hi|].
  split; [exact Hz|].
  exact (second_run_rescales 900000%float Binary64.beta Binary64.gama
           Binary64.mortalidade 5100%float 0%float 0%float 360%float
           5623%float self 36000 Hi Hz).
Defined.

(** A finite, positive [simulationTime] for which the quotient overflows. *)
Lemma run_fails_only_in_int_overflow :
  (900000 =? 0)%float = false /\
  simulacao 900000%float Binary64.beta Binary64.gama Binary64.mortalidade
            5100%float 0%float 0%float 1e307%float 5623%float
  = Raise OverflowError.
Proof.
  assert (Hp : (900000 =? 0)%float = false) by (vm_compute; reflexivity).
  split; [exact Hp|].
  exact (run_fails_only_in_int 900000%float Binary64.beta Binary64.gama
           Binary64.mortalidade 5100%float 0%float 0%float 1e307%float
           5623%float Hp).
Defined.

Local Open Scope Q_scope.











End Further_executions.
